(** * realm-object-store: schema property types and sync permissions

    A shallow embedding of [src/property.hpp] and of the data declared in
    [src/sync/sync_permission.hpp], followed by the properties proved about
    them.  A [PropertyType] is the [unsigned char] under the enum, kept as a
    [Z]; every [static_cast] back to the enum is written as the reduction
    modulo [2^8] that the conversion to [unsigned char] performs. *)

From Stdlib Require Import ZArith Bool List String Ascii Lia.
Import ListNotations.

Local Open Scope Z_scope.

(* ================================================================== *)
(** * property.hpp *)
(* ================================================================== *)

(** ** [enum class PropertyType : unsigned char] and its operators *)

Module PropertyType.

Definition t : Type := Z.

Definition Int            : t := 0.
Definition Bool           : t := 1.
Definition String         : t := 2.
Definition Data           : t := 3.
Definition Date           : t := 4.
Definition Float          : t := 5.
Definition Double         : t := 6.
Definition Object         : t := 7.
Definition LinkingObjects : t := 8.
Definition Any            : t := 9.

Definition Indexed  : t := 32.
Definition Nullable : t := 64.
Definition Array    : t := 128.
Definition Flags    : t := Z.lor (Z.lor Indexed Nullable) Array.

(** The values an [unsigned char] can hold. *)
Definition wf (a : t) : Prop := 0 <= a < 256.

(** [to_underlying]: the [unsigned char] behind the enumerator. *)
Definition to_underlying (e : t) : Z := e.

(** [static_cast<PropertyType>(i)] of an [int]: conversion to the
    underlying [unsigned char]. *)
Definition static_cast (i : Z) : t := i mod 256.

(** [operator&], [operator|], [operator^], [operator~]. *)
Definition and (a b : t) : t :=
  static_cast (Z.land (to_underlying a) (to_underlying b)).

Definition or (a b : t) : t :=
  static_cast (Z.lor (to_underlying a) (to_underlying b)).

Definition xor (a b : t) : t :=
  static_cast (Z.lxor (to_underlying a) (to_underlying b)).

Definition not (a : t) : t :=
  static_cast (Z.lnot (to_underlying a)).

(** [operator==] and [operator!=]: both sides are masked with [~Flags]. *)
Definition eq (a b : t) : bool :=
  to_underlying (and a (not Flags)) =? to_underlying (and b (not Flags)).

Definition neq (a b : t) : bool := negb (eq a b).

Definition is_array (a : t) : bool :=
  to_underlying (and a Array) =? to_underlying Array.

(** [operator&=], [operator|=], [operator^=]: each stores the combined value
    in [a] and returns the reference to [a]; the value given here is the one
    [a] holds afterwards, which is also what the returned reference denotes. *)
Definition and_assign (a b : t) : t := and a b.

Definition or_assign (a b : t) : t := or a b.

Definition xor_assign (a b : t) : t := xor a b.

End PropertyType.

(** Modelled from the spec: [REALM_COMPILER_HINT_UNREACHABLE()] is defined in
    [util/compiler.hpp], which is not among the sources.  The spec calls
    reaching it "a fatal internal-consistency failure", "never a recoverable
    error": a call either returns a value or ends in that failure. *)
Inductive outcome (A : Type) : Type :=
| Returns (a : A)
| Unreachable.

Arguments Returns {A} a.
Arguments Unreachable {A}.

(** ** [string_for_property_type]

    The array branch switches on [type & ~Flags]; the other branch switches
    on [type] itself.  A [switch] compares the underlying integers: the
    overloaded [operator==] plays no part in it. *)
Definition string_for_property_type (type : PropertyType.t) : outcome string :=
  if PropertyType.is_array type then
    match PropertyType.to_underlying
            (PropertyType.and type (PropertyType.not PropertyType.Flags)) with
    | 2 => Returns "[string]"%string
    | 0 => Returns "[int]"%string
    | 1 => Returns "[bool]"%string
    | 4 => Returns "[date]"%string
    | 3 => Returns "[data]"%string
    | 6 => Returns "[double]"%string
    | 5 => Returns "[float]"%string
    | 7 => Returns "[object]"%string
    | 9 => Returns "[any]"%string
    | 8 => Returns "[linking objects]"%string
    | _ => Unreachable
    end
  else
    match PropertyType.to_underlying type with
    | 2 => Returns "string"%string
    | 0 => Returns "int"%string
    | 1 => Returns "bool"%string
    | 4 => Returns "date"%string
    | 3 => Returns "data"%string
    | 6 => Returns "double"%string
    | 5 => Returns "float"%string
    | 7 => Returns "object"%string
    | 9 => Returns "any"%string
    | 8 => Returns "linking objects"%string
    | _ => Unreachable
    end.

(** ** [struct Property] *)

Module Property.

Record t : Type := Build {
  name : string;
  type : PropertyType.t;
  object_type : string;
  link_origin_property_name : string;
  is_primary : bool;
  is_indexed : bool;
  is_nullable : bool;
  table_column : Z  (* [size_t]; nothing below depends on its width *)
}.

Definition requires_index (p : t) : bool :=
  is_primary p || is_indexed p.

(** Here [==] is the overloaded, masked comparison. *)
Definition is_indexable (p : t) : bool :=
  PropertyType.eq (type p) PropertyType.Int
  || PropertyType.eq (type p) PropertyType.Bool
  || PropertyType.eq (type p) PropertyType.Date
  || PropertyType.eq (type p) PropertyType.String.

Definition type_is_nullable (p : t) : bool :=
  negb (PropertyType.is_array (type p)
        && PropertyType.eq (type p) PropertyType.Object).

(** The [switch] of [type_string] is on [type] unmasked. *)
Definition type_string (p : t) : outcome string :=
  if PropertyType.is_array (type p) then
    Returns ("array<" ++ object_type p ++ ">")%string
  else
    match PropertyType.to_underlying (type p) with
    | 7 => Returns ("<" ++ object_type p ++ ">")%string
    | 8 => Returns ("linking objects<" ++ object_type p ++ ">")%string
    | _ => string_for_property_type (type p)
    end.

End Property.

(** [operator==(Property const&, Property const&)]: [table_column] is not
    looked at. *)
Definition Property_eq (lft rgt : Property.t) : bool :=
  PropertyType.eq (Property.type lft) (Property.type rgt)
  && Bool.eqb (Property.is_primary lft) (Property.is_primary rgt)
  && Bool.eqb (Property.is_nullable lft) (Property.is_nullable rgt)
  && Bool.eqb (Property.requires_index lft) (Property.requires_index rgt)
  && String.eqb (Property.name lft) (Property.name rgt)
  && String.eqb (Property.object_type lft) (Property.object_type rgt)
  && String.eqb (Property.link_origin_property_name lft)
                (Property.link_origin_property_name rgt).

(* ================================================================== *)
(** * sync/sync_permission.hpp *)
(* ================================================================== *)

(** ** [struct Permission] *)

Module Permission.

(** [enum class AccessLevel { None, Read, Write, Admin }]: no explicit
    values, so the enumerators number from zero in declaration order. *)
Inductive AccessLevel : Type := None | Read | Write | Admin.

Definition to_underlying (a : AccessLevel) : Z :=
  match a with
  | None => 0
  | Read => 1
  | Write => 2
  | Admin => 3
  end.

(** The built-in relational operators of a scoped enumeration compare the
    underlying values. *)
Definition lt (a b : AccessLevel) : bool := to_underlying a <? to_underlying b.
Definition le (a b : AccessLevel) : bool := to_underlying a <=? to_underlying b.
Definition ge (a b : AccessLevel) : bool := le b a.

(** [struct Condition]: the tag [type] and the union it discriminates. *)
Inductive Condition : Type :=
| UserId (user_id : string)
| KeyValue (key_value : string * string).

(** [Condition(std::string id)]. *)
Definition Condition_of_id (id : string) : Condition := UserId id.

Record t : Type := Build {
  path : string;
  access : AccessLevel;
  condition : Condition
}.

End Permission.

(** ** [class PermissionResults] *)

Module PermissionResults.

(** [OutOfBoundsIndexException], named by the comment on [get]. *)
Inductive exception : Type :=
| OutOfBoundsIndexException.

(** Modelled from the spec: [Results] ([results.hpp]) is not among the
    sources.  The spec describes it as the result set behind "a live,
    filterable, sortable view over a set of Permission records"; one
    snapshot of it is the sequence of the records currently in the view. *)
Definition Results : Type := list Permission.t.

Record t : Type := Build { m_results : Results }.

(** Modelled from the spec: the body of [size()] is in
    [sync_permission.cpp], which is not among the sources.  "[size()]:
    count of records currently in the filtered/sorted view." *)
Definition size (r : t) : nat := List.length (m_results r).

(** Modelled from the spec: the body of [get()] is in
    [sync_permission.cpp], which is not among the sources.  "[get(index)]:
    fails with an out-of-bounds error when [index >= size()].  Returns a
    Permission value snapshotted at call time"; the header adds "Throws
    OutOfBoundsIndexException if index >= size()". *)
Definition get (r : t) (index : nat) : exception + Permission.t :=
  match nth_error (m_results r) index with
  | Some permission => inr permission
  | None => inl OutOfBoundsIndexException
  end.

End PermissionResults.

(* ================================================================== *)
(** * Properties of the PropertyType algebra *)
(* ================================================================== *)

(** Splits a goal about a bit position [i] with [0 <= i < 8] into the eight
    positions and runs [tac] on each. *)
Ltac byte_bit_cases i tac :=
  let Hcases := fresh "Hcases" in
  assert (Hcases : i = 0 \/ i = 1 \/ i = 2 \/ i = 3 \/ i = 4
                   \/ i = 5 \/ i = 6 \/ i = 7) by lia;
  repeat (destruct Hcases as [-> | Hcases]; [tac | ]);
  subst i; tac.

Section PropertyTypeBits.

Import PropertyType.

Lemma Flags_value : Flags = 224.
Proof. reflexivity. Qed.

Lemma not_Flags_value : not Flags = Z.ones 5.
Proof. reflexivity. Qed.

(** Within the byte, the bits of [Flags] are bits 5, 6 and 7. *)
Lemma Flags_testbit (i : Z) :
  0 <= i < 8 -> Z.testbit Flags i = (5 <=? i).
Proof.
  intros Hi. byte_bit_cases i reflexivity.
Qed.

(** Masking with [~Flags] keeps the five low bits. *)
Lemma and_not_Flags (a : t) : and a (not Flags) = a mod 32.
Proof.
  unfold and, static_cast, to_underlying.
  rewrite not_Flags_value, Z.land_ones by lia.
  change (2 ^ 5) with 32.
  apply Z.mod_small.
  pose proof (Z.mod_pos_bound a 32). lia.
Qed.

Lemma eq_mod_32 (a b : t) : eq a b = (a mod 32 =? b mod 32).
Proof. unfold eq, to_underlying. now rewrite !and_not_Flags. Qed.

Lemma mod_32_testbit (a b : Z) :
  a mod 32 = b mod 32 <->
  (forall i, 0 <= i < 5 -> Z.testbit a i = Z.testbit b i).
Proof.
  change 32 with (2 ^ 5). split.
  - intros H i Hi.
    rewrite <- (Z.mod_pow2_bits_low a 5 i), <- (Z.mod_pow2_bits_low b 5 i) by lia.
    now rewrite H.
  - intros H. apply Z.bits_inj'. intros i Hi.
    destruct (Z.ltb_spec i 5) as [Hlt | Hge].
    + rewrite !Z.mod_pow2_bits_low by lia. apply H. lia.
    + rewrite !Z.mod_pow2_bits_high by lia. reflexivity.
Qed.

(** [is_array] reads bit 7. *)
Lemma is_array_testbit (a : t) : is_array a = Z.testbit a 7.
Proof.
  unfold is_array, and, static_cast, to_underlying, Array.
  assert (Hland : Z.land a 128 = if Z.testbit a 7 then 128 else 0).
  { apply Z.bits_inj'. intros i Hi.
    rewrite Z.land_spec.
    change 128 with (2 ^ 7) at 1.
    rewrite Z.pow2_bits_eqb by lia.
    destruct (Z.eqb_spec 7 i) as [<- | Hne].
    - rewrite andb_true_r. destruct (Z.testbit a 7); reflexivity.
    - rewrite andb_false_r.
      destruct (Z.testbit a 7).
      + change 128 with (2 ^ 7). rewrite Z.pow2_bits_eqb by lia.
        symmetry. now apply Z.eqb_neq.
      + now rewrite Z.bits_0. }
  rewrite Hland. destruct (Z.testbit a 7); reflexivity.
Qed.

End PropertyTypeBits.

(** C1: for all PropertyType values [t] and [u], [t == t] holds whatever
    modifier bits [t] carries; [t == u] holds exactly when [t] and [u] agree
    on every bit of the byte that [Flags] leaves out (equivalently, when
    [t & ~Flags] and [u & ~Flags] are the same value); [t != u] as soon as
    they differ on one such bit; and two values that differ on [Flags] bits
    only compare equal. *)
Theorem PropertyType_eq_compares_base_kind (t u : PropertyType.t) :
  PropertyType.eq t t = true
  /\ (PropertyType.eq t u = true <->
      forall i, 0 <= i < 8 -> Z.testbit PropertyType.Flags i = false ->
                Z.testbit t i = Z.testbit u i)
  /\ (PropertyType.eq t u = true <->
      PropertyType.and t (PropertyType.not PropertyType.Flags)
      = PropertyType.and u (PropertyType.not PropertyType.Flags))
  /\ (forall i, 0 <= i < 8 -> Z.testbit PropertyType.Flags i = false ->
                Z.testbit t i <> Z.testbit u i ->
                PropertyType.neq t u = true)
  /\ ((forall i, 0 <= i < 8 -> Z.testbit t i <> Z.testbit u i ->
                 Z.testbit PropertyType.Flags i = true) ->
      PropertyType.eq t u = true).
Proof.
  assert (Hbits : PropertyType.eq t u = true <->
                  forall i, 0 <= i < 8 -> Z.testbit PropertyType.Flags i = false ->
                            Z.testbit t i = Z.testbit u i).
  { rewrite eq_mod_32, Z.eqb_eq, mod_32_testbit. split.
    - intros H i Hi Hflag. apply H.
      rewrite Flags_testbit in Hflag by exact Hi.
      apply Z.leb_gt in Hflag. lia.
    - intros H i Hi. apply H; [lia | ].
      rewrite Flags_testbit by lia. apply Z.leb_gt. lia. }
  split; [ | split; [exact Hbits | split; [ | split]]].
  - rewrite eq_mod_32. apply Z.eqb_refl.
  - unfold PropertyType.eq, PropertyType.to_underlying. apply Z.eqb_eq.
  - intros i Hi Hflag Hne. unfold PropertyType.neq.
    destruct (PropertyType.eq t u) eqn:E; [ | reflexivity].
    exfalso. apply Hne. exact (proj1 Hbits eq_refl i Hi Hflag).
  - intros H. apply Hbits. intros i Hi Hflag.
    destruct (Bool.bool_dec (Z.testbit t i) (Z.testbit u i)) as [Heq | Hne];
      [exact Heq | ].
    specialize (H i Hi Hne). congruence.
Qed.

(** An instance of C1: [Nullable|Int] and [Array|Indexed|Int] differ on
    modifier bits only and compare equal, while [Int] and [Bool] compare
    unequal. *)
Lemma PropertyType_eq_compares_base_kind_witness :
  PropertyType.eq (PropertyType.or PropertyType.Nullable PropertyType.Int)
                  (PropertyType.or PropertyType.Array
                     (PropertyType.or PropertyType.Indexed PropertyType.Int)) = true
  /\ PropertyType.neq PropertyType.Int PropertyType.Bool = true.
Proof.
  split.
  - apply (PropertyType_eq_compares_base_kind 64 160).
    intros i Hi Hne.
    byte_bit_cases i ltac:(first [reflexivity | exfalso; apply Hne; reflexivity]).
  - apply (proj1 (proj2 (proj2 (proj2 (PropertyType_eq_compares_base_kind 0 1)))) 0).
    + lia.
    + reflexivity.
    + discriminate.
Defined.

(* ================================================================== *)
(** * Rendering: [string_for_property_type] and [Property::type_string] *)
(* ================================================================== *)

(** The ten base kinds the enum defines. *)
Lemma defined_base_kind_cases (k : Z) :
  0 <= k <= 9 ->
  k = PropertyType.Int \/ k = PropertyType.Bool \/ k = PropertyType.String
  \/ k = PropertyType.Data \/ k = PropertyType.Date \/ k = PropertyType.Float
  \/ k = PropertyType.Double \/ k = PropertyType.Object
  \/ k = PropertyType.LinkingObjects \/ k = PropertyType.Any.
Proof.
  unfold PropertyType.Int, PropertyType.Bool, PropertyType.String,
    PropertyType.Data, PropertyType.Date, PropertyType.Float,
    PropertyType.Double, PropertyType.Object, PropertyType.LinkingObjects,
    PropertyType.Any.
  lia.
Qed.

(** With the Array bit set the switch is on the masked value, so every
    combination of Indexed and Nullable renders. *)
Lemma string_for_property_type_array (type : PropertyType.t) :
  PropertyType.is_array type = true ->
  0 <= type mod 32 <= 9 ->
  exists s, string_for_property_type type = Returns s.
Proof.
  intros Harr Hkind. unfold string_for_property_type.
  rewrite Harr, and_not_Flags. unfold PropertyType.to_underlying.
  destruct (defined_base_kind_cases _ Hkind)
    as [-> | [-> | [-> | [-> | [-> | [-> | [-> | [-> | [-> | ->]]]]]]]]];
    eexists; reflexivity.
Qed.

(** Without any modifier bit the ten kinds render as well. *)
Lemma string_for_property_type_bare (type : PropertyType.t) :
  0 <= type <= 9 ->
  exists s, string_for_property_type type = Returns s.
Proof.
  intros Hkind.
  destruct (defined_base_kind_cases _ Hkind)
    as [-> | [-> | [-> | [-> | [-> | [-> | [-> | [-> | [-> | ->]]]]]]]]];
    eexists; reflexivity.
Qed.

(** C2 (the code departs from the claim): [Nullable|Int] is a well-formed
    PropertyType whose base kind is the defined kind [Int], yet
    [string_for_property_type] ends in the unreachable default.  Its second
    switch is on the unmasked [type], which no case label equals once the
    Indexed or Nullable bit is set; the first switch, taken when the Array bit
    is set, masks with [~Flags] and returns ["[int]"] for the same kind and
    the same modifier. *)
Theorem string_for_property_type_nullable_int_unreachable :
  PropertyType.wf (PropertyType.or PropertyType.Nullable PropertyType.Int)
  /\ PropertyType.and (PropertyType.or PropertyType.Nullable PropertyType.Int)
                      (PropertyType.not PropertyType.Flags) = PropertyType.Int
  /\ string_for_property_type
       (PropertyType.or PropertyType.Nullable PropertyType.Int) = Unreachable
  /\ string_for_property_type
       (PropertyType.or PropertyType.Array
          (PropertyType.or PropertyType.Nullable PropertyType.Int))
     = Returns "[int]"%string.
Proof.
  repeat split; try reflexivity; vm_compute; discriminate.
Qed.

(** C3 (as stated, refuted): [Array|Int] is not an array of objects, not a
    to-one link and not of kind LinkingObjects, so the claim sends it to
    [string_for_property_type], which gives ["[int]"]; [type_string] gives
    ["array<>"].  Likewise [Array|LinkingObjects] has base kind
    LinkingObjects and is rendered ["array<Dog>"], not
    ["linking objects<Dog>"]. *)
Lemma type_string_array_not_canonical :
  let ints :=
    Property.Build "counts"
      (PropertyType.or PropertyType.Array PropertyType.Int)
      "" "" false false false 0 in
  let owners :=
    Property.Build "owners"
      (PropertyType.or PropertyType.Array PropertyType.LinkingObjects)
      "Dog" "pet" false false false 1 in
  (PropertyType.is_array (Property.type ints) = true
   /\ PropertyType.eq (Property.type ints) PropertyType.Object = false
   /\ PropertyType.eq (Property.type ints) PropertyType.LinkingObjects = false
   /\ string_for_property_type (Property.type ints) = Returns "[int]"%string
   /\ Property.type_string ints = Returns "array<>"%string
   /\ Property.type_string ints <> string_for_property_type (Property.type ints))
  /\ (PropertyType.eq (Property.type owners) PropertyType.LinkingObjects = true
      /\ Property.type_string owners = Returns "array<Dog>"%string
      /\ Property.type_string owners <> Returns "linking objects<Dog>"%string).
Proof.
  cbv zeta. repeat split; try reflexivity; vm_compute; discriminate.
Qed.

(** C3 (amended): whenever the Array bit of the type is set, [type_string]
    returns ["array<" + object_type + ">"], whatever the base kind; when no
    modifier bit is set it returns ["<" + object_type + ">"] for Object,
    ["linking objects<" + object_type + ">"] for LinkingObjects, and what
    [string_for_property_type] returns for every other type. *)
Theorem type_string_by_cases (p : Property.t) :
  (PropertyType.is_array (Property.type p) = true ->
   Property.type_string p
   = Returns ("array<" ++ Property.object_type p ++ ">")%string)
  /\ (Property.type p = PropertyType.Object ->
      Property.type_string p
      = Returns ("<" ++ Property.object_type p ++ ">")%string)
  /\ (Property.type p = PropertyType.LinkingObjects ->
      Property.type_string p
      = Returns ("linking objects<" ++ Property.object_type p ++ ">")%string)
  /\ (Z.land (Property.type p) PropertyType.Flags = 0 ->
      Property.type p <> PropertyType.Object ->
      Property.type p <> PropertyType.LinkingObjects ->
      Property.type_string p = string_for_property_type (Property.type p)).
Proof.
  unfold Property.type_string. repeat split.
  - intros ->. reflexivity.
  - intros ->. reflexivity.
  - intros ->. reflexivity.
  - intros Hflags Hobj Hlink.
    assert (Harr : PropertyType.is_array (Property.type p) = false).
    { rewrite is_array_testbit.
      pose proof (Z.land_spec (Property.type p) PropertyType.Flags 7) as Hbit.
      rewrite Hflags, Z.bits_0 in Hbit.
      change (Z.testbit PropertyType.Flags 7) with true in Hbit.
      now rewrite andb_true_r in Hbit. }
    rewrite Harr. unfold PropertyType.to_underlying.
    unfold PropertyType.Object, PropertyType.LinkingObjects in *.
    destruct (Property.type p) as [ | k | k]; try reflexivity.
    do 4 (try destruct k as [k | k | ]); try reflexivity; congruence.
Qed.

(** An instance of the amended C3 on [Array|Int], on a bare [Object] link and
    on a bare [Date]. *)
Lemma type_string_by_cases_witness :
  Property.type_string
    (Property.Build "counts" (PropertyType.or PropertyType.Array PropertyType.Int)
       "" "" false false false 0) = Returns "array<>"%string
  /\ Property.type_string
       (Property.Build "pet" PropertyType.Object "Dog" "" false false true 1)
     = Returns "<Dog>"%string
  /\ Property.type_string
       (Property.Build "born" PropertyType.Date "" "" false true false 2)
     = string_for_property_type PropertyType.Date.
Proof.
  split; [ | split].
  - apply (proj1 (type_string_by_cases
                    (Property.Build "counts" 128 "" "" false false false 0))).
    reflexivity.
  - apply (proj1 (proj2 (type_string_by_cases
                    (Property.Build "pet" 7 "Dog" "" false false true 1)))).
    reflexivity.
  - apply (proj2 (proj2 (proj2 (type_string_by_cases
                    (Property.Build "born" 4 "" "" false true false 2))))).
    + reflexivity.
    + discriminate.
    + discriminate.
Defined.

(** C4: [string_for_property_type(Int)] is ["int"],
    [string_for_property_type(Array|Int)] is ["[int]"], and a Property of
    type Object (no Array bit) whose object_type is ["Dog"] has type_string
    ["<Dog>"]. *)
Theorem string_for_property_type_literals (p : Property.t) :
  Property.type p = PropertyType.Object ->
  Property.object_type p = "Dog"%string ->
  string_for_property_type PropertyType.Int = Returns "int"%string
  /\ string_for_property_type
       (PropertyType.or PropertyType.Array PropertyType.Int)
     = Returns "[int]"%string
  /\ Property.type_string p = Returns "<Dog>"%string.
Proof.
  intros Htype Hobj. repeat split.
  unfold Property.type_string. rewrite Htype, Hobj. reflexivity.
Qed.

Lemma string_for_property_type_literals_witness :
  string_for_property_type PropertyType.Int = Returns "int"%string
  /\ string_for_property_type
       (PropertyType.or PropertyType.Array PropertyType.Int)
     = Returns "[int]"%string
  /\ Property.type_string
       (Property.Build "pet" PropertyType.Object "Dog" "" false false true 3)
     = Returns "<Dog>"%string.
Proof.
  apply (string_for_property_type_literals
           (Property.Build "pet" PropertyType.Object "Dog" "" false false true 3));
    reflexivity.
Defined.

(* ================================================================== *)
(** * Properties of [struct Property] *)
(* ================================================================== *)

(** What [operator==] on Property tests, field by field. *)
Lemma Property_eq_true_iff (lft rgt : Property.t) :
  Property_eq lft rgt = true <->
  Property.type lft mod 32 = Property.type rgt mod 32
  /\ Property.is_primary lft = Property.is_primary rgt
  /\ Property.is_nullable lft = Property.is_nullable rgt
  /\ Property.requires_index lft = Property.requires_index rgt
  /\ Property.name lft = Property.name rgt
  /\ Property.object_type lft = Property.object_type rgt
  /\ Property.link_origin_property_name lft
     = Property.link_origin_property_name rgt.
Proof.
  unfold Property_eq.
  rewrite !andb_true_iff, eq_mod_32, Z.eqb_eq, !Bool.eqb_true_iff, !String.eqb_eq.
  tauto.
Qed.

(** C5: two Property values with the same name, type, object_type,
    link_origin_property_name, is_primary, is_indexed and is_nullable compare
    equal whatever their table_column values are, in particular when these
    differ; two Property values with different names do not compare equal. *)
Theorem Property_eq_ignores_table_column (p q : Property.t) :
  (Property.name p = Property.name q ->
   Property.type p = Property.type q ->
   Property.object_type p = Property.object_type q ->
   Property.link_origin_property_name p = Property.link_origin_property_name q ->
   Property.is_primary p = Property.is_primary q ->
   Property.is_indexed p = Property.is_indexed q ->
   Property.is_nullable p = Property.is_nullable q ->
   Property.table_column p <> Property.table_column q ->
   Property_eq p q = true)
  /\ (Property.name p <> Property.name q -> Property_eq p q = false).
Proof.
  split.
  - intros Hname Htype Hobj Hlink Hprim Hidx Hnull _.
    apply Property_eq_true_iff. unfold Property.requires_index.
    rewrite Htype, Hprim, Hidx. auto 10.
  - intros Hname. apply not_true_is_false. intros Heq.
    apply Property_eq_true_iff in Heq. tauto.
Qed.

Lemma Property_eq_ignores_table_column_witness :
  Property_eq
    (Property.Build "age" PropertyType.Int "" "" false true false 0)
    (Property.Build "age" PropertyType.Int "" "" false true false 5) = true
  /\ Property_eq
       (Property.Build "age" PropertyType.Int "" "" false true false 0)
       (Property.Build "years" PropertyType.Int "" "" false true false 0) = false.
Proof.
  split.
  - apply (proj1 (Property_eq_ignores_table_column
                    (Property.Build "age" PropertyType.Int "" "" false true false 0)
                    (Property.Build "age" PropertyType.Int "" "" false true false 5)));
      try reflexivity.
    discriminate.
  - apply (proj2 (Property_eq_ignores_table_column
                    (Property.Build "age" PropertyType.Int "" "" false true false 0)
                    (Property.Build "years" PropertyType.Int "" "" false true false 0))).
    discriminate.
Defined.

(** C10: Property equality looks at the type through the masked comparison
    and at indexing through [requires_index] only.  Two Property values that
    agree on name, object_type, link_origin_property_name, is_primary and
    is_nullable, and whose types agree outside the [Flags] bits, compare
    equal provided either their is_indexed flags agree or both are primary
    keys. *)
Theorem Property_eq_ignores_modifiers_and_index_of_primary (p q : Property.t) :
  Property.name p = Property.name q ->
  Property.object_type p = Property.object_type q ->
  Property.link_origin_property_name p = Property.link_origin_property_name q ->
  Property.is_primary p = Property.is_primary q ->
  Property.is_nullable p = Property.is_nullable q ->
  (forall i, 0 <= i < 8 ->
             Z.testbit (Property.type p) i <> Z.testbit (Property.type q) i ->
             Z.testbit PropertyType.Flags i = true) ->
  (Property.is_indexed p = Property.is_indexed q
   \/ (Property.is_primary p = true /\ Property.is_primary q = true)) ->
  Property_eq p q = true.
Proof.
  intros Hname Hobj Hlink Hprim Hnull Htype Hidx.
  apply Property_eq_true_iff. repeat split; try assumption.
  - apply mod_32_testbit. intros i Hi.
    destruct (Bool.bool_dec (Z.testbit (Property.type p) i)
                            (Z.testbit (Property.type q) i)) as [Heq | Hne];
      [exact Heq | ].
    assert (Hflag : Z.testbit PropertyType.Flags i = true)
      by (apply Htype; [lia | exact Hne]).
    rewrite Flags_testbit in Hflag by lia.
    apply Z.leb_le in Hflag. lia.
  - unfold Property.requires_index.
    destruct Hidx as [Hidx | [Hp Hq]].
    + now rewrite Hprim, Hidx.
    + now rewrite Hp, Hq.
Qed.

Lemma Property_eq_ignores_modifiers_and_index_of_primary_witness :
  Property_eq
    (Property.Build "id" PropertyType.Int "" "" true true false 0)
    (Property.Build "id"
       (PropertyType.or PropertyType.Indexed
          (PropertyType.or PropertyType.Nullable PropertyType.Int))
       "" "" true false false 0) = true.
Proof.
  apply (Property_eq_ignores_modifiers_and_index_of_primary
           (Property.Build "id" 0 "" "" true true false 0)
           (Property.Build "id" 96 "" "" true false false 0));
    try reflexivity.
  - intros i Hi Hne. cbn in Hne.
    byte_bit_cases i ltac:(first [reflexivity | exfalso; apply Hne; reflexivity]).
  - right. split; reflexivity.
Defined.

(** The Indexed and Nullable bits take no part in [is_array] or in the masked
    comparison with a fixed kind. *)
Lemma xor_modifier_preserves (a f k : PropertyType.t) :
  f = PropertyType.Indexed \/ f = PropertyType.Nullable ->
  PropertyType.is_array (PropertyType.xor a f) = PropertyType.is_array a
  /\ PropertyType.eq (PropertyType.xor a f) k = PropertyType.eq a k.
Proof.
  intros Hf.
  assert (Hlow : forall i, 0 <= i < 8 -> i <> 5 -> i <> 6 ->
                           Z.testbit (PropertyType.xor a f) i = Z.testbit a i).
  { intros i Hi H5 H6.
    unfold PropertyType.xor, PropertyType.static_cast, PropertyType.to_underlying.
    change 256 with (2 ^ 8).
    rewrite Z.mod_pow2_bits_low, Z.lxor_spec by lia.
    assert (Hfi : Z.testbit f i = false).
    { destruct Hf as [-> | ->].
      - change PropertyType.Indexed with (2 ^ 5).
        rewrite Z.pow2_bits_eqb by lia. apply Z.eqb_neq. lia.
      - change PropertyType.Nullable with (2 ^ 6).
        rewrite Z.pow2_bits_eqb by lia. apply Z.eqb_neq. lia. }
    rewrite Hfi. apply xorb_false_r. }
  split.
  - rewrite !is_array_testbit. apply Hlow; lia.
  - rewrite !eq_mod_32. f_equal.
    apply mod_32_testbit. intros i Hi. apply Hlow; lia.
Qed.

(** C6: [type_is_nullable] is false exactly when the type has the Array bit
    (bit 7) set and its base kind (the five bits outside [Flags]) is Object;
    it is true for every other type; and toggling the Indexed or the Nullable
    bit of the type never changes the answer. *)
Theorem type_is_nullable_false_iff_array_of_objects (p : Property.t) :
  (Property.type_is_nullable p = false <->
   Z.testbit (Property.type p) 7 = true
   /\ Property.type p mod 32 = PropertyType.Object)
  /\ (Property.type_is_nullable p = true <->
      Z.testbit (Property.type p) 7 = false
      \/ Property.type p mod 32 <> PropertyType.Object)
  /\ (forall f, f = PropertyType.Indexed \/ f = PropertyType.Nullable ->
        Property.type_is_nullable
          (Property.Build (Property.name p)
             (PropertyType.xor (Property.type p) f)
             (Property.object_type p) (Property.link_origin_property_name p)
             (Property.is_primary p) (Property.is_indexed p)
             (Property.is_nullable p) (Property.table_column p))
        = Property.type_is_nullable p).
Proof.
  unfold Property.type_is_nullable. cbn [Property.type].
  split; [ | split].
  - rewrite negb_false_iff, andb_true_iff, is_array_testbit, eq_mod_32, Z.eqb_eq.
    reflexivity.
  - rewrite negb_true_iff, andb_false_iff, is_array_testbit, eq_mod_32, Z.eqb_neq.
    reflexivity.
  - intros f Hf.
    destruct (xor_modifier_preserves (Property.type p) f PropertyType.Object Hf)
      as [-> ->].
    reflexivity.
Qed.

Lemma type_is_nullable_false_iff_array_of_objects_witness :
  Property.type_is_nullable
    (Property.Build "pets"
       (PropertyType.or PropertyType.Array PropertyType.Object)
       "Dog" "" false false false 0) = false
  /\ Property.type_is_nullable
       (Property.Build "pet" PropertyType.Object "Dog" "" false false true 1) = true.
Proof.
  split.
  - apply (proj1 (type_is_nullable_false_iff_array_of_objects
                    (Property.Build "pets" 135 "Dog" "" false false false 0))).
    split; reflexivity.
  - apply (proj1 (proj2 (type_is_nullable_false_iff_array_of_objects
                    (Property.Build "pet" 7 "Dog" "" false false true 1)))).
    left. reflexivity.
Defined.

(* ================================================================== *)
(** * Properties of the permission model *)
(* ================================================================== *)

(** C7: under their underlying values the access levels are strictly and
    totally ordered, None < Read < Write < Admin; a grant that meets a level
    meets every lower one, and a Write grant meets Read. *)
Theorem AccessLevel_total_order :
  (Permission.lt Permission.None Permission.Read = true
   /\ Permission.lt Permission.Read Permission.Write = true
   /\ Permission.lt Permission.Write Permission.Admin = true)
  /\ (forall a, Permission.lt a a = false)
  /\ (forall a b c, Permission.lt a b = true -> Permission.lt b c = true ->
                    Permission.lt a c = true)
  /\ (forall a b, Permission.lt a b = true \/ a = b \/ Permission.lt b a = true)
  /\ (forall granted required lower,
        Permission.ge granted required = true ->
        Permission.lt lower required = true ->
        Permission.ge granted lower = true)
  /\ (forall required,
        Permission.le required Permission.Read = true ->
        Permission.ge Permission.Write required = true)
  /\ Permission.ge Permission.Write Permission.Read = true.
Proof.
  repeat split.
  - intros []; reflexivity.
  - intros [] [] []; cbn; congruence.
  - intros [] []; cbn; auto.
  - intros [] [] []; cbn; congruence.
  - intros []; cbn; congruence.
Qed.

(** An instance of C7: whoever is granted Admin passes a check for Read. *)
Lemma AccessLevel_total_order_witness :
  Permission.ge Permission.Admin Permission.Read = true.
Proof.
  apply (proj1 (proj2 (proj2 (proj2 (proj2 AccessLevel_total_order))))
           Permission.Admin Permission.Write Permission.Read);
    reflexivity.
Defined.

(** C8: [get(i)] throws OutOfBoundsIndexException exactly when
    [i >= size()], and for every [i] below [size()] it returns a Permission,
    the one at position [i] of the view. *)
Theorem PermissionResults_get_bounds (r : PermissionResults.t) (i : nat) :
  (PermissionResults.get r i = inl PermissionResults.OutOfBoundsIndexException
   <-> (PermissionResults.size r <= i)%nat)
  /\ ((i < PermissionResults.size r)%nat ->
      exists permission,
        PermissionResults.get r i = inr permission
        /\ nth_error (PermissionResults.m_results r) i = Some permission).
Proof.
  unfold PermissionResults.get, PermissionResults.size.
  destruct (nth_error (PermissionResults.m_results r) i) as [permission | ] eqn:Hnth.
  - assert (Hlt : (i < List.length (PermissionResults.m_results r))%nat).
    { apply nth_error_Some. congruence. }
    repeat split.
    + intros He. discriminate.
    + intros Hle. lia.
    + intros _. exists permission. split; reflexivity.
  - apply nth_error_None in Hnth.
    repeat split.
    + intros _. exact Hnth.
    + intros Hlt. lia.
Qed.

Lemma PermissionResults_get_bounds_witness :
  let view :=
    PermissionResults.Build
      [ Permission.Build "/A/Data" Permission.Write (Permission.UserId "userB") ] in
  (exists permission, PermissionResults.get view 0 = inr permission
                      /\ nth_error (PermissionResults.m_results view) 0
                         = Some permission)
  /\ PermissionResults.get view 1
     = inl PermissionResults.OutOfBoundsIndexException.
Proof.
  cbv zeta. split.
  - apply (proj2 (PermissionResults_get_bounds
             (PermissionResults.Build
                [ Permission.Build "/A/Data" Permission.Write
                    (Permission.UserId "userB") ]) 0)).
    cbn. lia.
  - apply (proj2 (proj1 (PermissionResults_get_bounds
             (PermissionResults.Build
                [ Permission.Build "/A/Data" Permission.Write
                    (Permission.UserId "userB") ]) 1))).
    cbn. lia.
Defined.

(* ================================================================== *)
(** * Further properties of the PropertyType operators *)
(* ================================================================== *)

Section PropertyTypeOperators.

Import PropertyType.

Lemma static_cast_wf (x : Z) : wf (static_cast x).
Proof. unfold wf, static_cast. apply Z.mod_pos_bound. lia. Qed.

Lemma wf_static_cast (a : t) : wf a -> static_cast a = a.
Proof. intros Ha. apply Z.mod_small. exact Ha. Qed.

Lemma static_cast_testbit (x i : Z) :
  Z.testbit (static_cast x) i = (i <? 8) && Z.testbit x i.
Proof.
  unfold static_cast. change 256 with (2 ^ 8).
  apply Z.testbit_mod_pow2. lia.
Qed.

(** A byte has no bit above bit 7. *)
Lemma wf_testbit_high (a : t) (i : Z) :
  wf a -> 8 <= i -> Z.testbit a i = false.
Proof.
  intros Ha Hi. rewrite <- (wf_static_cast a Ha), static_cast_testbit.
  apply andb_false_intro1. apply Z.ltb_ge. exact Hi.
Qed.

Lemma and_testbit (a b : t) (i : Z) :
  Z.testbit (and a b) i = (i <? 8) && (Z.testbit a i && Z.testbit b i).
Proof. unfold and, to_underlying. now rewrite static_cast_testbit, Z.land_spec. Qed.

Lemma or_testbit (a b : t) (i : Z) :
  Z.testbit (or a b) i = (i <? 8) && (Z.testbit a i || Z.testbit b i).
Proof. unfold or, to_underlying. now rewrite static_cast_testbit, Z.lor_spec. Qed.

Lemma xor_testbit (a b : t) (i : Z) :
  Z.testbit (xor a b) i = (i <? 8) && xorb (Z.testbit a i) (Z.testbit b i).
Proof. unfold xor, to_underlying. now rewrite static_cast_testbit, Z.lxor_spec. Qed.

Lemma not_testbit (a : t) (i : Z) :
  0 <= i -> Z.testbit (not a) i = (i <? 8) && negb (Z.testbit a i).
Proof.
  intros Hi. unfold not, to_underlying.
  now rewrite static_cast_testbit, Z.lnot_spec.
Qed.

End PropertyTypeOperators.

(** Proves an equation between bytes bit by bit: the operators are rewritten
    to their bits, the bits above bit 7 of a well-formed value are zero, and
    what is left is a Boolean identity. *)
Ltac byte_bitwise :=
  let i := fresh "i" in
  let Hi := fresh "Hi" in
  apply Z.bits_inj'; intros i Hi;
  repeat first [ rewrite and_testbit | rewrite or_testbit | rewrite xor_testbit
               | rewrite not_testbit by exact Hi | rewrite Z.bits_0 ];
  destruct (Z.ltb_spec i 8);
  [ | rewrite ?wf_testbit_high by (assumption || lia) ];
  cbn [andb orb negb xorb];
  repeat match goal with
         | |- context [Z.testbit ?x i] => destruct (Z.testbit x i)
         end;
  reflexivity.

(** X1: on well-formed operands the cast back to the enum never wraps:
    [&], [|] and [^] are the plain bitwise operations on the underlying
    values, and [~a] is [255 - a]. *)
Theorem PropertyType_operators_do_not_wrap (a b : PropertyType.t) :
  PropertyType.wf a -> PropertyType.wf b ->
  PropertyType.and a b = Z.land a b
  /\ PropertyType.or a b = Z.lor a b
  /\ PropertyType.xor a b = Z.lxor a b
  /\ PropertyType.not a = 255 - a.
Proof.
  intros Ha Hb.
  assert (Hbits : forall f : Z -> Z -> Z,
             (forall i, 8 <= i -> Z.testbit (f a b) i = false) ->
             (forall i, i < 0 -> Z.testbit (f a b) i = false) ->
             PropertyType.static_cast (f a b) = f a b).
  { intros f Hhigh Hneg. apply Z.bits_inj'. intros i Hi.
    rewrite static_cast_testbit.
    destruct (Z.ltb_spec i 8) as [Hlt | Hge]; [reflexivity | ].
    now rewrite Hhigh. }
  repeat split.
  - apply (Hbits Z.land); intros i Hi.
    + now rewrite Z.land_spec, (wf_testbit_high a i Ha Hi).
    + now apply Z.testbit_neg_r.
  - apply (Hbits Z.lor); intros i Hi.
    + now rewrite Z.lor_spec, (wf_testbit_high a i Ha Hi), (wf_testbit_high b i Hb Hi).
    + now apply Z.testbit_neg_r.
  - apply (Hbits Z.lxor); intros i Hi.
    + now rewrite Z.lxor_spec, (wf_testbit_high a i Ha Hi), (wf_testbit_high b i Hb Hi).
    + now apply Z.testbit_neg_r.
  - unfold PropertyType.not, PropertyType.static_cast, PropertyType.to_underlying.
    unfold PropertyType.wf in Ha.
    replace (Z.lnot a) with ((255 - a) + (-1) * 256) by (unfold Z.lnot; lia).
    rewrite Z.mod_add by lia. apply Z.mod_small. lia.
Qed.

Lemma PropertyType_operators_do_not_wrap_witness :
  PropertyType.and 71 PropertyType.Flags = Z.land 71 PropertyType.Flags
  /\ PropertyType.or 71 PropertyType.Flags = Z.lor 71 PropertyType.Flags
  /\ PropertyType.xor 71 PropertyType.Flags = Z.lxor 71 PropertyType.Flags
  /\ PropertyType.not 71 = 255 - 71.
Proof.
  apply (PropertyType_operators_do_not_wrap 71 PropertyType.Flags);
    unfold PropertyType.wf; cbn; lia.
Defined.

(** X2: the operators stay inside the byte whatever their operands are, and
    on well-formed values [~] is an involution that obeys De Morgan's laws
    and complements: [a & ~a] is 0 and [a | ~a] is 255. *)
Theorem PropertyType_not_laws (a b : PropertyType.t) :
  PropertyType.wf a -> PropertyType.wf b ->
  (PropertyType.wf (PropertyType.and a b) /\ PropertyType.wf (PropertyType.or a b)
   /\ PropertyType.wf (PropertyType.xor a b) /\ PropertyType.wf (PropertyType.not a))
  /\ PropertyType.not (PropertyType.not a) = a
  /\ PropertyType.not (PropertyType.and a b)
     = PropertyType.or (PropertyType.not a) (PropertyType.not b)
  /\ PropertyType.not (PropertyType.or a b)
     = PropertyType.and (PropertyType.not a) (PropertyType.not b)
  /\ PropertyType.and a (PropertyType.not a) = 0
  /\ PropertyType.or a (PropertyType.not a) = 255.
Proof.
  intros Ha Hb. split; [ | repeat split].
  - repeat split; apply static_cast_wf.
  - byte_bitwise.
  - byte_bitwise.
  - byte_bitwise.
  - apply Z.bits_inj'. intros i Hi.
    rewrite and_testbit, not_testbit, Z.bits_0 by exact Hi.
    destruct (i <? 8), (Z.testbit a i); reflexivity.
  - apply Z.bits_inj'. intros i Hi.
    rewrite or_testbit, not_testbit by exact Hi.
    change 255 with (Z.ones 8). rewrite Z.testbit_ones_nonneg by lia.
    destruct (Z.ltb_spec i 8) as [Hlt | Hge]; [ | reflexivity].
    destruct (Z.testbit a i); reflexivity.
Qed.

Lemma PropertyType_not_laws_witness :
  PropertyType.not (PropertyType.not PropertyType.Flags) = PropertyType.Flags
  /\ PropertyType.and PropertyType.Flags (PropertyType.not PropertyType.Flags) = 0.
Proof.
  assert (HF : PropertyType.wf PropertyType.Flags)
    by (unfold PropertyType.wf; change PropertyType.Flags with 224; lia).
  assert (HO : PropertyType.wf PropertyType.Object)
    by (unfold PropertyType.wf, PropertyType.Object; lia).
  pose proof (PropertyType_not_laws PropertyType.Flags PropertyType.Object HF HO)
    as [_ [Hinv [_ [_ [Hand _]]]]].
  split; [exact Hinv | exact Hand].
Defined.

(** X3: toggling the same bits twice with [^=] gives back the value one
    started from, and toggling [Array] flips [is_array] while the masked
    comparison still sees the same type. *)
Theorem PropertyType_xor_assign_twice (a f : PropertyType.t) :
  PropertyType.wf a ->
  PropertyType.xor_assign (PropertyType.xor_assign a f) f = a
  /\ PropertyType.is_array (PropertyType.xor_assign a PropertyType.Array)
     = negb (PropertyType.is_array a)
  /\ PropertyType.eq (PropertyType.xor_assign a PropertyType.Array) a = true.
Proof.
  intros Ha. unfold PropertyType.xor_assign. split; [ | split].
  - byte_bitwise.
  - rewrite !is_array_testbit, xor_testbit.
    change (Z.testbit PropertyType.Array 7) with true.
    now rewrite xorb_true_r.
  - rewrite eq_mod_32. apply Z.eqb_eq, mod_32_testbit. intros i Hi.
    rewrite xor_testbit.
    change PropertyType.Array with (2 ^ 7). rewrite Z.pow2_bits_eqb by lia.
    replace (i <? 8) with true by (symmetry; apply Z.ltb_lt; lia).
    replace (7 =? i) with false by (symmetry; apply Z.eqb_neq; lia).
    now rewrite xorb_false_r.
Qed.

Lemma PropertyType_xor_assign_twice_witness :
  PropertyType.xor_assign
    (PropertyType.xor_assign PropertyType.Object PropertyType.Nullable)
    PropertyType.Nullable = PropertyType.Object.
Proof.
  apply (PropertyType_xor_assign_twice PropertyType.Object PropertyType.Nullable).
  unfold PropertyType.wf, PropertyType.Object. lia.
Defined.

(** Bits 0 to 4 of a value whose masked part is zero. *)
Lemma only_flags_low_bits (f : PropertyType.t) (i : Z) :
  PropertyType.and f (PropertyType.not PropertyType.Flags) = 0 ->
  0 <= i < 5 -> Z.testbit f i = false.
Proof.
  intros Hf Hi. rewrite and_not_Flags in Hf.
  change 32 with (2 ^ 5) in Hf.
  rewrite <- (Z.mod_pow2_bits_low f 5 i) by lia.
  rewrite Hf. apply Z.bits_0.
Qed.

(** X4: whatever modifier bits [f] holds (and nothing but modifier bits),
    setting them with [|=], toggling them with [^=] or clearing them with
    [&= ~f] leaves a value that [==] still takes for the same type. *)
Theorem PropertyType_eq_unchanged_by_flag_updates (a f : PropertyType.t) :
  PropertyType.and f (PropertyType.not PropertyType.Flags) = 0 ->
  PropertyType.eq (PropertyType.or_assign a f) a = true
  /\ PropertyType.eq (PropertyType.xor_assign a f) a = true
  /\ PropertyType.eq (PropertyType.and_assign a (PropertyType.not f)) a = true.
Proof.
  intros Hf.
  unfold PropertyType.or_assign, PropertyType.xor_assign, PropertyType.and_assign.
  repeat split; rewrite eq_mod_32; apply Z.eqb_eq, mod_32_testbit; intros i Hi;
    rewrite ?or_testbit, ?xor_testbit, ?and_testbit, ?not_testbit by lia;
    rewrite (only_flags_low_bits f i Hf Hi);
    replace (i <? 8) with true by (symmetry; apply Z.ltb_lt; lia);
    destruct (Z.testbit a i); reflexivity.
Qed.

Lemma PropertyType_eq_unchanged_by_flag_updates_witness :
  PropertyType.eq
    (PropertyType.or_assign PropertyType.Date
       (PropertyType.or PropertyType.Array PropertyType.Nullable))
    PropertyType.Date = true.
Proof.
  apply (PropertyType_eq_unchanged_by_flag_updates PropertyType.Date
           (PropertyType.or PropertyType.Array PropertyType.Nullable)).
  reflexivity.
Defined.

(** X5: [is_array] holds after [|= Array] and fails after [&= ~Array],
    whatever the value was; both updates are idempotent. *)
Theorem is_array_after_set_and_clear (a : PropertyType.t) :
  PropertyType.is_array (PropertyType.or_assign a PropertyType.Array) = true
  /\ PropertyType.is_array
       (PropertyType.and_assign a (PropertyType.not PropertyType.Array)) = false
  /\ PropertyType.or_assign (PropertyType.or_assign a PropertyType.Array)
       PropertyType.Array
     = PropertyType.or_assign a PropertyType.Array
  /\ PropertyType.and_assign
       (PropertyType.and_assign a (PropertyType.not PropertyType.Array))
       (PropertyType.not PropertyType.Array)
     = PropertyType.and_assign a (PropertyType.not PropertyType.Array).
Proof.
  unfold PropertyType.or_assign, PropertyType.and_assign.
  repeat split.
  - rewrite is_array_testbit, or_testbit.
    change (Z.testbit PropertyType.Array 7) with true.
    now rewrite orb_true_r.
  - rewrite is_array_testbit, and_testbit, not_testbit by lia.
    change (Z.testbit PropertyType.Array 7) with true.
    now rewrite andb_false_r.
  - byte_bitwise.
  - byte_bitwise.
Qed.

(** X6: the masked comparison is symmetric and transitive, and [!=] is
    symmetric as well: with reflexivity, [==] on PropertyType is an
    equivalence relation. *)
Theorem PropertyType_eq_equivalence (a b c : PropertyType.t) :
  PropertyType.eq a a = true
  /\ PropertyType.eq a b = PropertyType.eq b a
  /\ (PropertyType.eq a b = true -> PropertyType.eq b c = true ->
      PropertyType.eq a c = true)
  /\ PropertyType.neq a b = PropertyType.neq b a.
Proof.
  unfold PropertyType.neq. rewrite !eq_mod_32. repeat split.
  - apply Z.eqb_refl.
  - apply Z.eqb_sym.
  - rewrite !Z.eqb_eq. congruence.
  - f_equal. apply Z.eqb_sym.
Qed.

(** X7: a well-formed value is the [|] of its base kind [a & ~Flags] and its
    modifier bits [a & Flags]; the base kind lies below 32, carries no
    modifier bit, and masking it again changes nothing. *)
Theorem PropertyType_kind_and_flags (a : PropertyType.t) :
  PropertyType.wf a ->
  PropertyType.or (PropertyType.and a (PropertyType.not PropertyType.Flags))
                  (PropertyType.and a PropertyType.Flags) = a
  /\ 0 <= PropertyType.and a (PropertyType.not PropertyType.Flags) < 32
  /\ PropertyType.and (PropertyType.and a (PropertyType.not PropertyType.Flags))
                      PropertyType.Flags = 0
  /\ PropertyType.and (PropertyType.and a (PropertyType.not PropertyType.Flags))
                      (PropertyType.not PropertyType.Flags)
     = PropertyType.and a (PropertyType.not PropertyType.Flags).
Proof.
  intros Ha. split; [ | split; [ | split]].
  - byte_bitwise.
  - rewrite and_not_Flags. apply Z.mod_pos_bound. lia.
  - byte_bitwise.
  - byte_bitwise.
Qed.

Lemma PropertyType_kind_and_flags_witness :
  PropertyType.or (PropertyType.and 199 (PropertyType.not PropertyType.Flags))
                  (PropertyType.and 199 PropertyType.Flags) = 199.
Proof.
  apply (PropertyType_kind_and_flags 199).
  unfold PropertyType.wf. lia.
Defined.

(* ================================================================== *)
(** * Further properties of [struct Property] *)
(* ================================================================== *)

(** The masked comparison with a fixed kind only depends on the class of the
    value under [==]. *)
Lemma eq_respects_eq (a b k : PropertyType.t) :
  PropertyType.eq a b = true -> PropertyType.eq a k = PropertyType.eq b k.
Proof.
  rewrite !eq_mod_32, Z.eqb_eq. now intros ->.
Qed.

(** Setting the Array bit leaves the five low bits alone. *)
Lemma or_Array_mod_32 (a : PropertyType.t) :
  PropertyType.or a PropertyType.Array mod 32 = a mod 32.
Proof.
  apply mod_32_testbit. intros i Hi.
  rewrite or_testbit.
  change PropertyType.Array with (2 ^ 7). rewrite Z.pow2_bits_eqb by lia.
  replace (i <? 8) with true by (symmetry; apply Z.ltb_lt; lia).
  replace (7 =? i) with false by (symmetry; apply Z.eqb_neq; lia).
  now rewrite orb_false_r.
Qed.

(** X8: [is_indexable] holds exactly when the base kind [type & ~Flags] is
    Int, Bool, Date or String, so it gives the same answer on two properties
    whose types compare equal under the masked [==], arrays included. *)
Theorem is_indexable_by_base_kind (p q : Property.t) :
  (Property.is_indexable p = true <->
   let kind := PropertyType.and (Property.type p)
                                (PropertyType.not PropertyType.Flags) in
   kind = PropertyType.Int \/ kind = PropertyType.Bool
   \/ kind = PropertyType.Date \/ kind = PropertyType.String)
  /\ (PropertyType.eq (Property.type p) (Property.type q) = true ->
      Property.is_indexable p = Property.is_indexable q)
  /\ Property.is_indexable
       (Property.Build (Property.name p)
          (PropertyType.or (Property.type p) PropertyType.Array)
          (Property.object_type p) (Property.link_origin_property_name p)
          (Property.is_primary p) (Property.is_indexed p)
          (Property.is_nullable p) (Property.table_column p))
     = Property.is_indexable p.
Proof.
  unfold Property.is_indexable. cbn [Property.type]. split; [ | split].
  - cbv zeta. rewrite !orb_true_iff, !eq_mod_32, !Z.eqb_eq, and_not_Flags.
    change (PropertyType.Int mod 32) with PropertyType.Int.
    change (PropertyType.Bool mod 32) with PropertyType.Bool.
    change (PropertyType.Date mod 32) with PropertyType.Date.
    change (PropertyType.String mod 32) with PropertyType.String.
    tauto.
  - intros Heq.
    now rewrite !(eq_respects_eq _ _ _ Heq).
  - assert (Heq : PropertyType.eq
                    (PropertyType.or (Property.type p) PropertyType.Array)
                    (Property.type p) = true).
    { rewrite eq_mod_32, or_Array_mod_32. apply Z.eqb_refl. }
    now rewrite !(eq_respects_eq _ _ _ Heq).
Qed.

Lemma is_indexable_by_base_kind_witness :
  Property.is_indexable
    (Property.Build "tags"
       (PropertyType.or PropertyType.Array PropertyType.String)
       "" "" false false false 0) = true.
Proof.
  apply (proj1 (is_indexable_by_base_kind
                  (Property.Build "tags" 130 "" "" false false false 0)
                  (Property.Build "tags" 130 "" "" false false false 0))).
  cbv zeta. right. right. right. reflexivity.
Defined.

(** X9: [operator==] on Property is reflexive, symmetric and transitive. *)
Theorem Property_eq_equivalence (p q r : Property.t) :
  Property_eq p p = true
  /\ Property_eq p q = Property_eq q p
  /\ (Property_eq p q = true -> Property_eq q r = true -> Property_eq p r = true).
Proof.
  split; [ | split].
  - apply Property_eq_true_iff. repeat split.
  - apply Bool.eq_iff_eq_true. rewrite !Property_eq_true_iff.
    intuition congruence.
  - rewrite !Property_eq_true_iff. intuition congruence.
Qed.

(** X10: two properties that compare equal have the same name, object_type,
    link_origin_property_name, is_primary and is_nullable, need an index
    alike and are indexable alike; unless they are primary keys their
    is_indexed flags are the same too. *)
Theorem Property_eq_agreement (p q : Property.t) :
  Property_eq p q = true ->
  Property.name p = Property.name q
  /\ Property.object_type p = Property.object_type q
  /\ Property.link_origin_property_name p = Property.link_origin_property_name q
  /\ Property.is_primary p = Property.is_primary q
  /\ Property.is_nullable p = Property.is_nullable q
  /\ Property.requires_index p = Property.requires_index q
  /\ Property.is_indexable p = Property.is_indexable q
  /\ (Property.is_primary p = false ->
      Property.is_indexed p = Property.is_indexed q).
Proof.
  intros Heq. apply Property_eq_true_iff in Heq.
  destruct Heq as (Htype & Hprim & Hnull & Hidx & Hname & Hobj & Hlink).
  repeat split; try assumption.
  - unfold Property.is_indexable.
    assert (Hmasked : PropertyType.eq (Property.type p) (Property.type q) = true)
      by (rewrite eq_mod_32; now apply Z.eqb_eq).
    now rewrite !(eq_respects_eq _ _ _ Hmasked).
  - intros Hp. unfold Property.requires_index in Hidx.
    rewrite <- Hprim, Hp in Hidx. exact Hidx.
Qed.

Lemma Property_eq_agreement_witness :
  Property.is_indexed
    (Property.Build "age" PropertyType.Int "" "" false true false 0)
  = Property.is_indexed
      (Property.Build "age"
         (PropertyType.or PropertyType.Indexed PropertyType.Int)
         "" "" false true false 4).
Proof.
  apply (Property_eq_agreement
           (Property.Build "age" 0 "" "" false true false 0)
           (Property.Build "age" 32 "" "" false true false 4));
    reflexivity.
Defined.

(** X11: [operator==] does not tell a to-one link from a list of links.
    Setting the Array bit on a non-array property of kind Object gives a
    property that compares equal to the first, although [type_is_nullable]
    is true for the first and false for the second. *)
Theorem Property_eq_blind_to_array_of_objects (p : Property.t) :
  PropertyType.eq (Property.type p) PropertyType.Object = true ->
  PropertyType.is_array (Property.type p) = false ->
  let list_of_p :=
    Property.Build (Property.name p)
      (PropertyType.or (Property.type p) PropertyType.Array)
      (Property.object_type p) (Property.link_origin_property_name p)
      (Property.is_primary p) (Property.is_indexed p)
      (Property.is_nullable p) (Property.table_column p) in
  Property_eq p list_of_p = true
  /\ Property.type_is_nullable p = true
  /\ Property.type_is_nullable list_of_p = false.
Proof.
  intros Hobj Harr. cbv zeta.
  pose proof (or_Array_mod_32 (Property.type p)) as Hmod.
  split; [ | split].
  - apply Property_eq_true_iff. cbn. rewrite Hmod. repeat split.
  - unfold Property.type_is_nullable. now rewrite Harr.
  - unfold Property.type_is_nullable. cbn [Property.type].
    rewrite is_array_testbit, or_testbit.
    change (Z.testbit PropertyType.Array 7) with true.
    rewrite orb_true_r.
    rewrite eq_mod_32, Hmod, <- eq_mod_32, Hobj. reflexivity.
Qed.

Lemma Property_eq_blind_to_array_of_objects_witness :
  Property_eq
    (Property.Build "pet" PropertyType.Object "Dog" "" false false true 0)
    (Property.Build "pet"
       (PropertyType.or PropertyType.Object PropertyType.Array)
       "Dog" "" false false true 0) = true.
Proof.
  apply (Property_eq_blind_to_array_of_objects
           (Property.Build "pet" PropertyType.Object "Dog" "" false false true 0));
    reflexivity.
Defined.

(* ================================================================== *)
(** * Further properties of the rendering functions *)
(* ================================================================== *)

(** When [string_for_property_type] returns, the value its switch ran on is
    one of the ten kinds: the masked value for an array, the value itself
    otherwise. *)
Lemma string_for_property_type_inv (type : PropertyType.t) (s : string) :
  string_for_property_type type = Returns s ->
  (PropertyType.is_array type = true /\ 0 <= type mod 32 <= 9)
  \/ (PropertyType.is_array type = false /\ 0 <= type <= 9).
Proof.
  unfold string_for_property_type.
  destruct (PropertyType.is_array type); intros H; [left | right];
    (split; [reflexivity | ]).
  - rewrite and_not_Flags in H. unfold PropertyType.to_underlying in H.
    destruct (type mod 32) as [ | k | k]; try discriminate H; try lia.
    do 4 (try destruct k as [k | k | ]); first [discriminate H | lia].
  - unfold PropertyType.to_underlying in H.
    destruct type as [ | k | k]; try discriminate H; try lia.
    do 4 (try destruct k as [k | k | ]); first [discriminate H | lia].
Qed.

(** X12: on a well-formed type [string_for_property_type] returns a name
    exactly when the Array bit is set and the base kind [type & ~Flags] is
    one of the ten kinds, or the unmasked type itself is one of the ten
    kinds. *)
Theorem string_for_property_type_returns_iff (type : PropertyType.t) :
  PropertyType.wf type ->
  ((exists s, string_for_property_type type = Returns s) <->
   (PropertyType.is_array type = true
    /\ PropertyType.and type (PropertyType.not PropertyType.Flags)
       <= PropertyType.Any)
   \/ type <= PropertyType.Any).
Proof.
  intros Hwf. unfold PropertyType.wf in Hwf. unfold PropertyType.Any.
  rewrite and_not_Flags. split.
  - intros [s Hs].
    destruct (string_for_property_type_inv type s Hs) as [[Harr Hk] | [Harr Hk]].
    + left. split; [exact Harr | lia].
    + right. lia.
  - intros [[Harr Hk] | Hk].
    + apply string_for_property_type_array; [exact Harr | ].
      pose proof (Z.mod_pos_bound type 32). lia.
    + apply string_for_property_type_bare. lia.
Qed.

Lemma string_for_property_type_returns_iff_witness :
  exists s,
    string_for_property_type
      (PropertyType.or PropertyType.Array
         (PropertyType.or PropertyType.Indexed PropertyType.Date)) = Returns s.
Proof.
  apply (proj2 (string_for_property_type_returns_iff 164
                  ltac:(unfold PropertyType.wf; lia))).
  left. split; [reflexivity | ]. vm_compute. discriminate.
Defined.

(** X13: the name of an array type is the name of its base kind between
    square brackets. *)
Theorem string_for_property_type_array_brackets (type : PropertyType.t) (s : string) :
  PropertyType.is_array type = true ->
  string_for_property_type type = Returns s ->
  exists kind_name,
    string_for_property_type
      (PropertyType.and type (PropertyType.not PropertyType.Flags))
    = Returns kind_name
    /\ s = ("[" ++ kind_name ++ "]")%string.
Proof.
  intros Harr Hs.
  destruct (string_for_property_type_inv type s Hs) as [[_ Hk] | [Hno _]];
    [ | congruence].
  unfold string_for_property_type in Hs.
  rewrite Harr, and_not_Flags in Hs. unfold PropertyType.to_underlying in Hs.
  rewrite and_not_Flags.
  destruct (defined_base_kind_cases _ Hk)
    as [E | [E | [E | [E | [E | [E | [E | [E | [E | E]]]]]]]]];
    rewrite E in Hs |- *; injection Hs as <-; eexists; split; reflexivity.
Qed.

Lemma string_for_property_type_array_brackets_witness :
  exists kind_name,
    string_for_property_type
      (PropertyType.and (PropertyType.or PropertyType.Array PropertyType.Float)
                        (PropertyType.not PropertyType.Flags))
    = Returns kind_name
    /\ "[float]"%string = ("[" ++ kind_name ++ "]")%string.
Proof.
  apply (string_for_property_type_array_brackets
           (PropertyType.or PropertyType.Array PropertyType.Float) "[float]");
    reflexivity.
Defined.

(** The name returned for a type is the name of a representative built from
    its Array bit and its kind alone. *)
Lemma string_for_property_type_representative (type : PropertyType.t) (s : string) :
  string_for_property_type type = Returns s ->
  exists k,
    0 <= k <= 9 /\ type mod 32 = k
    /\ string_for_property_type
         (if PropertyType.is_array type then PropertyType.or PropertyType.Array k
          else k) = Returns s.
Proof.
  intros Hs.
  destruct (string_for_property_type_inv type s Hs) as [[Harr Hk] | [Harr Hk]].
  - exists (type mod 32). split; [exact Hk | split; [reflexivity | ]].
    rewrite Harr, <- Hs. unfold string_for_property_type at 2.
    rewrite Harr, and_not_Flags.
    destruct (defined_base_kind_cases _ Hk)
      as [E | [E | [E | [E | [E | [E | [E | [E | [E | E]]]]]]]]];
      rewrite E; reflexivity.
  - exists type. split; [exact Hk | split; [ | now rewrite Harr]].
    apply Z.mod_small. lia.
Qed.

(** X14: the name determines the type up to the Indexed and Nullable bits:
    two types with the same name agree on [is_array] and compare equal under
    the masked [==]. *)
Theorem string_for_property_type_injective (a b : PropertyType.t) (s : string) :
  string_for_property_type a = Returns s ->
  string_for_property_type b = Returns s ->
  PropertyType.is_array a = PropertyType.is_array b
  /\ PropertyType.eq a b = true.
Proof.
  intros Ha Hb.
  destruct (string_for_property_type_representative a s Ha) as (ka & Hka & Ea & Ra).
  destruct (string_for_property_type_representative b s Hb) as (kb & Hkb & Eb & Rb).
  rewrite eq_mod_32, Ea, Eb. rewrite <- Rb in Ra. clear Ha Hb Ea Eb Rb.
  destruct (PropertyType.is_array a), (PropertyType.is_array b);
    destruct (defined_base_kind_cases _ Hka)
      as [-> | [-> | [-> | [-> | [-> | [-> | [-> | [-> | [-> | ->]]]]]]]]];
    destruct (defined_base_kind_cases _ Hkb)
      as [-> | [-> | [-> | [-> | [-> | [-> | [-> | [-> | [-> | ->]]]]]]]]];
    first [discriminate Ra | split; reflexivity].
Qed.

Lemma string_for_property_type_injective_witness :
  PropertyType.is_array
    (PropertyType.or PropertyType.Array
       (PropertyType.or PropertyType.Nullable PropertyType.Bool))
  = PropertyType.is_array (PropertyType.or PropertyType.Array PropertyType.Bool)
  /\ PropertyType.eq
       (PropertyType.or PropertyType.Array
          (PropertyType.or PropertyType.Nullable PropertyType.Bool))
       (PropertyType.or PropertyType.Array PropertyType.Bool) = true.
Proof.
  apply (string_for_property_type_injective 193 129 "[bool]"); reflexivity.
Defined.

(** A closing [">"] can be cancelled. *)
Lemma append_gt_cancel (s1 s2 : string) :
  (s1 ++ ">")%string = (s2 ++ ">")%string -> s1 = s2.
Proof.
  revert s2. induction s1 as [ | c s1 IH]; intros [ | d s2] H; cbn in H.
  - reflexivity.
  - injection H as _ H. destruct s2; discriminate H.
  - injection H as _ H. destruct s1; discriminate H.
  - injection H as -> H. f_equal. now apply IH.
Qed.

(** The shapes [type_string] can return, with the types that give them. *)
Lemma type_string_inv (p : Property.t) (s : string) :
  Property.type_string p = Returns s ->
  (PropertyType.is_array (Property.type p) = true
   /\ s = ("array<" ++ Property.object_type p ++ ">")%string)
  \/ (PropertyType.is_array (Property.type p) = false
      /\ ((Property.type p = PropertyType.Object
           /\ s = ("<" ++ Property.object_type p ++ ">")%string)
          \/ (Property.type p = PropertyType.LinkingObjects
              /\ s = ("linking objects<" ++ Property.object_type p ++ ">")%string)
          \/ (Property.type p = PropertyType.Int /\ s = "int"%string)
          \/ (Property.type p = PropertyType.Bool /\ s = "bool"%string)
          \/ (Property.type p = PropertyType.String /\ s = "string"%string)
          \/ (Property.type p = PropertyType.Data /\ s = "data"%string)
          \/ (Property.type p = PropertyType.Date /\ s = "date"%string)
          \/ (Property.type p = PropertyType.Float /\ s = "float"%string)
          \/ (Property.type p = PropertyType.Double /\ s = "double"%string)
          \/ (Property.type p = PropertyType.Any /\ s = "any"%string))).
Proof.
  unfold Property.type_string, string_for_property_type.
  destruct (PropertyType.is_array (Property.type p)); intros H.
  - left. split; [reflexivity | congruence].
  - right. split; [reflexivity | ].
    unfold PropertyType.to_underlying in H.
    destruct (Property.type p) as [ | k | k]; try discriminate H.
    + injection H as <-. tauto.
    + do 4 (try destruct k as [k | k | ]); try discriminate H;
        injection H as <-; tauto.
Qed.

(** X15: [type_string] returns a string exactly when the Array bit is set or
    the unmasked type is one of the ten kinds. *)
Theorem type_string_returns_iff (p : Property.t) :
  (exists s, Property.type_string p = Returns s) <->
  PropertyType.is_array (Property.type p) = true
  \/ 0 <= Property.type p <= PropertyType.Any.
Proof.
  unfold PropertyType.Any. split.
  - intros [s Hs].
    destruct (type_string_inv p s Hs) as [[Harr _] | [_ Hcases]];
      [left; exact Harr | right].
    unfold PropertyType.Object, PropertyType.LinkingObjects, PropertyType.Int,
      PropertyType.Bool, PropertyType.String, PropertyType.Data,
      PropertyType.Date, PropertyType.Float, PropertyType.Double,
      PropertyType.Any in Hcases.
    lia.
  - unfold Property.type_string.
    destruct (PropertyType.is_array (Property.type p)) eqn:Harr.
    + intros _. eexists. reflexivity.
    + intros [Hno | Hk]; [discriminate Hno | ].
      unfold string_for_property_type. rewrite Harr.
      destruct (defined_base_kind_cases _ Hk)
        as [-> | [-> | [-> | [-> | [-> | [-> | [-> | [-> | [-> | ->]]]]]]]]];
        eexists; reflexivity.
Qed.

(** X16: the string [type_string] returns tells arrays from the rest, fixes
    the unmasked type of a non-array property, and fixes object_type
    wherever it is rendered (arrays, Object, LinkingObjects). *)
Theorem type_string_injective (p q : Property.t) (s : string) :
  Property.type_string p = Returns s ->
  Property.type_string q = Returns s ->
  PropertyType.is_array (Property.type p) = PropertyType.is_array (Property.type q)
  /\ (PropertyType.is_array (Property.type p) = false ->
      Property.type p = Property.type q)
  /\ (PropertyType.is_array (Property.type p) = true
      \/ Property.type p = PropertyType.Object
      \/ Property.type p = PropertyType.LinkingObjects ->
      Property.object_type p = Property.object_type q).
Proof.
  intros Hp Hq.
  apply type_string_inv in Hp. apply type_string_inv in Hq.
  unfold PropertyType.Object, PropertyType.LinkingObjects, PropertyType.Int,
    PropertyType.Bool, PropertyType.String, PropertyType.Data,
    PropertyType.Date, PropertyType.Float, PropertyType.Double,
    PropertyType.Any in *.
  destruct Hp as [[Hap Hsp] | [Hap Hp]]; destruct Hq as [[Haq Hsq] | [Haq Hq]];
    rewrite Hap, Haq.
  - rewrite Hsp in Hsq. cbn in Hsq. injection Hsq as Hsq.
    apply append_gt_cancel in Hsq.
    repeat split; [congruence | intros _; congruence].
  - exfalso. subst s.
    repeat (destruct Hq as [[_ Hq] | Hq]; [cbn in Hq; discriminate Hq | ]).
    destruct Hq as [_ Hq]. cbn in Hq. discriminate Hq.
  - exfalso. subst s.
    repeat (destruct Hp as [[_ Hp] | Hp]; [cbn in Hp; discriminate Hp | ]).
    destruct Hp as [_ Hp]. cbn in Hp. discriminate Hp.
  - repeat (destruct Hp as [[Htp Hp] | Hp]; [ | ]); try destruct Hp as [Htp Hp];
      (repeat (destruct Hq as [[Htq Hq] | Hq]; [ | ]); try destruct Hq as [Htq Hq]);
      rewrite Hp in Hq; cbn in Hq; try discriminate Hq;
      (repeat split;
       [ congruence
       | intros [Hc | [Hc | Hc]];
         first [ congruence
               | injection Hq as Hq; apply append_gt_cancel in Hq; congruence ] ]).
Qed.

Lemma type_string_injective_witness :
  PropertyType.is_array
    (Property.type
       (Property.Build "pets" (PropertyType.or PropertyType.Array PropertyType.Object)
          "Dog" "" false false false 0))
  = PropertyType.is_array
      (Property.type
         (Property.Build "tags" (PropertyType.or PropertyType.Array PropertyType.String)
            "Dog" "" false false false 1)).
Proof.
  apply (type_string_injective
           (Property.Build "pets" 135 "Dog" "" false false false 0)
           (Property.Build "tags" 130 "Dog" "" false false false 1)
           "array<Dog>");
    reflexivity.
Defined.
